(** * aws-delivlib: the blocked time windows of the change-control lambda

    A shallow embedding of [change-control-lambda/lib/time-window.ts]
    and the properties its specification states about it.

    The module decides whether a deployment pipeline must suspend
    promotions: it takes a parsed iCal document, a reference instant and
    an advance margin in seconds, and returns the first calendar event in
    conflict with the window running from the reference instant to the
    reference instant plus the margin.

    Two further parts of the library follow: the shell commands that
    [lib/shellable.ts] writes for a build on Linux and on Windows, and the
    names that [lib/code-signing] derives from the path of a certificate. *)

From Stdlib Require Import ZArith List String Ascii Bool Lia Permutation.
Import ListNotations.
Open Scope Z_scope.

(** ** The JavaScript values the module computes with *)

Module JS.

(** The Numbers that reach the comparisons of the module.  A [Date]
    holds a time value: an integral count of milliseconds since the
    epoch, or NaN.  The margin is an integral count of seconds, so that
    every intermediate result is an integer or NaN.  Below 2^53 the
    IEEE sum and product of integers are exact, and every result beyond
    that bound lies outside the range of a time value, whether rounded
    or not: integers stand for these Numbers without loss. *)
Inductive number : Type :=
| NaN
| Num (z : Z).

(** [a + b] *)
Definition add (a b : number) : number :=
  match a, b with
  | Num x, Num y => Num (x + y)
  | _, _ => NaN
  end.

(** [a * b] *)
Definition mul (a b : number) : number :=
  match a, b with
  | Num x, Num y => Num (x * y)
  | _, _ => NaN
  end.

(** [a >= b]: false as soon as one side is NaN. *)
Definition geq (a b : number) : bool :=
  match a, b with
  | Num x, Num y => y <=? x
  | _, _ => false
  end.

(** [a <= b]: false as soon as one side is NaN. *)
Definition leq (a b : number) : bool :=
  match a, b with
  | Num x, Num y => x <=? y
  | _, _ => false
  end.

(** The largest magnitude of a time value: 8.64e15 ms, that is
    100,000,000 days on either side of the epoch. *)
Definition maxTimeValue : Z := 8640000000000000.

(** The abstract operation TimeClip of ECMA-262, applied by the [Date]
    constructor to its argument: a time outside the range is NaN. *)
Definition TimeClip (time : number) : number :=
  match time with
  | NaN => NaN
  | Num t => if maxTimeValue <? Z.abs t then NaN else Num t
  end.

(** A [Date] object is its time value; the one whose time value is NaN
    is the Invalid Date. *)
Record Date : Type := mkDate { getTime : number }.

(** [new Date(value)] *)
Definition newDate (value : number) : Date :=
  mkDate (TimeClip value).

(** What a relational operator makes of an operand that is a [Date] or
    [undefined] ([None]): a [Date] gives its time value, [undefined]
    gives NaN.  No operand makes the comparison throw. *)
Definition toNumber (v : option Date) : number :=
  match v with
  | Some d => getTime d
  | None => NaN
  end.

(** The outcome of a call: a returned value, or a thrown error. *)
Inductive outcome (A : Type) : Type :=
| Returned (a : A)
| Thrown (error : string).
Arguments Returned {A} a.
Arguments Thrown {A} error.

End JS.

Import JS.

(** The date whose time value is the instant [ms]. *)
Definition instant (ms : Z) : Date := mkDate (Num ms).

(** ** time-window.ts *)

(** The type of an element of [params], [any]: the module never looks
    inside one. *)
Inductive any : Type :=
| AnyString (s : string)
| AnyNumber (n : number)
| AnyBoolean (b : bool).

(** [interface CalendarEvent].  The interface declares [start] and [end]
    as required, but nothing checks what the parser hands over: a
    property that is absent reads as [undefined], which is [None] here.
    [end] is a keyword of Rocq, hence [end_]. *)
Record CalendarEvent : Type := mkCalendarEvent {
  summary : string;
  start : option Date;
  end_ : option Date;
  dtstamp : option Date;
  type : string;
  params : option (list any);
  datetype : string
}.

(** [type Events = { [uuid: string]: CalendarEvent }]: the own properties
    of the object, in the order in which [Object.values] enumerates
    them. *)
Definition Events : Type := list (string * CalendarEvent).

(** [Object.values(events)] *)
Definition Object_values (events : Events) : list CalendarEvent :=
  map snd events.

(** [function isBetween(date, left, right)], lines 69-71. *)
Definition isBetween (date left right : option Date) : bool :=
  geq (toNumber date) (toNumber left) && leq (toNumber date) (toNumber right).

(** [function happensBetween(event, fromDate, toDate)], lines 62-67. *)
Definition happensBetween (event : CalendarEvent) (fromDate toDate : Date) : bool :=
  isBetween (Some fromDate) (start event) (end_ event)
  || isBetween (Some toDate) (start event) (end_ event)
  || isBetween (start event) (Some fromDate) (Some toDate)
  || isBetween (end_ event) (Some fromDate) (Some toDate).

(** [const bufferedDate = new Date(date.getTime() + advanceMarginSec * 1_000)],
    line 43. *)
Definition bufferedDate (date : Date) (advanceMarginSec : Z) : Date :=
  newDate (add (getTime date) (mul (Num advanceMarginSec) (Num 1000))).

(** [e => e.type === 'VEVENT'], line 45. *)
Definition isVEVENT (e : CalendarEvent) : bool :=
  String.eqb (type e) "VEVENT".

(** [function containingEventsWithMargin(events, date, advanceMarginSec)],
    lines 42-47. *)
Definition containingEventsWithMargin
    (events : Events) (date : Date) (advanceMarginSec : Z) : list CalendarEvent :=
  let bufferedDate := bufferedDate date advanceMarginSec in
  filter (fun e => happensBetween e date bufferedDate)
    (filter isVEVENT (Object_values events)).

(** Lines 38-39 of [shouldBlockPipeline]: the verdict on a collection
    that is already parsed, [blocks.length > 0 ? blocks[0] : undefined]. *)
Definition evaluate
    (events : Events) (now : Date) (advanceMarginSec : Z) : option CalendarEvent :=
  let blocks := containingEventsWithMargin events now advanceMarginSec in
  if (0 <? List.length blocks)%nat then nth_error blocks 0 else None.

Section Pipeline.

(** [ical.parseICS] of node-ical, which is not part of the module: it
    returns the parsed collection or throws. *)
Variable parseICS : string -> outcome Events.

(** The value of [new Date()] when the call is made. *)
Variable currentTime : Date.

(** [export function shouldBlockPipeline(icalData, now = new Date(),
    advanceMarginSec = 3600)], lines 36-40.  An argument left out is
    [None] and takes its default; [icalData] is the document already
    decoded as text. *)
Definition shouldBlockPipeline
    (icalData : string) (now : option Date) (advanceMarginSec : option Z)
    : outcome (option CalendarEvent) :=
  let now := match now with Some d => d | None => currentTime end in
  let advanceMarginSec :=
    match advanceMarginSec with Some s => s | None => 3600 end in
  match parseICS icalData with
  | Thrown error => Thrown error
  | Returned events => Returned (evaluate events now advanceMarginSec)
  end.

End Pipeline.

(** ** Vocabulary of the specification *)

(** The event [ev] runs from the instant [s] to the instant [e], both in
    milliseconds since the epoch. *)
Definition spans (ev : CalendarEvent) (s e : Z) : Prop :=
  start ev = Some (instant s) /\ end_ ev = Some (instant e).

(** The value [v] carries no instant: the property is absent, or holds
    the Invalid Date. *)
Definition lacksInstant (v : option Date) : Prop :=
  toNumber v = NaN.

(** The evaluator reports a block. *)
Definition blocked (events : Events) (now : Date) (advanceMarginSec : Z) : Prop :=
  exists e, evaluate events now advanceMarginSec = Some e.

(** The entry [e] is of the event kind and in conflict with the search
    window of [now] and the margin. *)
Definition conflicting (now : Date) (advanceMarginSec : Z) (e : CalendarEvent) : bool :=
  isVEVENT e && happensBetween e now (bufferedDate now advanceMarginSec).

(** Two entries agree on the fields the decision reads: [start], [end]
    and [type]. *)
Definition sameDecisionFields (a b : CalendarEvent) : Prop :=
  start a = start b /\ end_ a = end_ b /\ type a = type b.

(** Every entry of the event kind has a start and an end instant, in
    this order. *)
Definition wellOrdered (events : Events) : Prop :=
  forall ev, In ev (Object_values events) -> isVEVENT ev = true ->
    exists s e, spans ev s e /\ s <= e.

(** ** Sample calendars *)

(** An entry of kind [kind] with the given bounds. *)
Definition entry (kind label : string) (s e : option Date) : CalendarEvent :=
  {| summary := label; start := s; end_ := e; dtstamp := None;
     type := kind; params := None; datetype := "date-time" |}.

(** A block from 10:00 to 11:00 on the first day of the epoch. *)
Definition morningBlock : CalendarEvent :=
  entry "VEVENT" "release freeze"
    (Some (instant 36000000)) (Some (instant 39600000)).

(** A to-do entry over the same hours. *)
Definition morningTodo : CalendarEvent :=
  entry "VTODO" "water the plants"
    (Some (instant 36000000)) (Some (instant 39600000)).

(** A block from 10:30 to 12:00. *)
Definition noonBlock : CalendarEvent :=
  entry "VEVENT" "maintenance"
    (Some (instant 37800000)) (Some (instant 43200000)).

Definition sampleCalendar : Events :=
  [("todo-1"%string, morningTodo); ("block-1"%string, morningBlock); ("block-2"%string, noonBlock)].

(** The same calendar after an edit of the labels and time stamps. *)
Definition relabelledCalendar : Events :=
  [("t"%string, {| summary := "plants"; start := start morningTodo;
            end_ := end_ morningTodo; dtstamp := Some (instant 5);
            type := "VTODO"; params := Some [AnyString "x"];
            datetype := "date-time" |});
   ("a"%string, {| summary := "freeze"; start := start morningBlock;
            end_ := end_ morningBlock; dtstamp := Some (instant 7);
            type := "VEVENT"; params := Some [];
            datetype := "date-time" |});
   ("b"%string, {| summary := ""; start := start noonBlock;
            end_ := end_ noonBlock; dtstamp := None;
            type := "VEVENT"; params := None;
            datetype := "date-time" |})].

(** An event whose end comes before its start. *)
Definition backwardsBlock : CalendarEvent :=
  entry "VEVENT" "backwards" (Some (instant 1000)) (Some (instant 500)).

(** An event without a start. *)
Definition openStartBlock : CalendarEvent :=
  entry "VEVENT" "no start" None (Some (instant 500)).

(** An event without an end. *)
Definition openEndBlock : CalendarEvent :=
  entry "VEVENT" "no end" (Some (instant 500)) None.

(** A short block one second after the epoch. *)
Definition earlyBlock : CalendarEvent :=
  entry "VEVENT" "early" (Some (instant 1000)) (Some (instant 2000)).

(** A parser that returns the same collection for every document. *)
Definition parsesTo (events : Events) : string -> outcome Events :=
  fun _ => Returned events.

(** ** shellable.ts *)

Module Shellable.

Local Open Scope string_scope.

(** The double quote character, which the commands contain. *)
Definition dq : string := String (ascii_of_nat 34) EmptyString.

(** [const S3_BUCKET_ENV], line 12. *)
Definition S3_BUCKET_ENV : string := "SCRIPT_S3_BUCKET".

(** [const S3_KEY_ENV], line 13. *)
Definition S3_KEY_ENV : string := "SCRIPT_S3_KEY".

(** [interface AssumeRole], lines 149-218.  An optional property that
    is left out is [None]. *)
Record AssumeRole : Type := mkAssumeRole {
  roleArn : string;
  sessionName : string;
  externalId : option string;
  profileName : option string;
  refresh : option bool
}.

(** A string in a condition: [undefined] and the empty string are
    false, every other string is true. *)
Definition truthy (s : option string) : bool :=
  match s with
  | Some (String _ _) => true
  | _ => false
  end.

(** A boolean in a condition: [undefined] is false. *)
Definition isTrue (b : option bool) : bool :=
  match b with
  | Some true => true
  | _ => false
  end.

(** A string property inside a template literal: [undefined] prints as
    its name. *)
Definition interpolate (s : option string) : string :=
  match s with
  | Some x => x
  | None => "undefined"
  end.

(** [enum PlatformType], lines 339-342. *)
Inductive PlatformType : Type :=
| Linux
| Windows.

(** [LinuxPlatform.prebuildCommands(assumeRole, useRegionalStsEndpoints)],
    lines 389-440.  Each [lines.push] appends one command. *)
Definition LinuxPlatform_prebuildCommands
    (assumeRole : option AssumeRole) (useRegionalStsEndpoints : option bool)
    : list string :=
  let lines : list string :=
    [ "echo " ++ dq ++ "Downloading scripts from s3://${" ++ S3_BUCKET_ENV
        ++ "}/${" ++ S3_KEY_ENV ++ "}" ++ dq;
      "aws s3 cp s3://${" ++ S3_BUCKET_ENV ++ "}/${" ++ S3_KEY_ENV ++ "} /tmp";
      "mkdir -p /tmp/scriptdir";
      "unzip /tmp/$(basename $" ++ S3_KEY_ENV ++ ") -d /tmp/scriptdir" ] in
  match assumeRole with
  | None => lines
  | Some assumeRole =>
    if isTrue (refresh assumeRole) then
      let awsHome := "~/.aws" in
      let profileName :=
        match profileName assumeRole with
        | Some p => p
        | None => "long-running-profile"
        end in
      let lines := List.app lines
        [ "mkdir -p " ++ awsHome;
          "touch " ++ awsHome ++ "/credentials";
          "config=" ++ awsHome ++ "/config";
          "echo [profile " ++ profileName ++ "]>> ${config}";
          "echo credential_source = EcsContainer >> ${config}";
          "echo role_session_name = " ++ sessionName assumeRole ++ " >> ${config}";
          "echo role_arn = " ++ roleArn assumeRole ++ " >> $config" ] in
      let lines :=
        if truthy (externalId assumeRole)
        then List.app lines [ "echo external_id = "
                           ++ interpolate (externalId assumeRole)
                           ++ " >> $config" ]
        else lines in
      List.app lines
        [ "export AWS_PROFILE=" ++ profileName;
          "export AWS_SDK_LOAD_CONFIG=1" ]
    else
      let externalId :=
        if truthy (externalId assumeRole)
        then "--external-id " ++ dq ++ interpolate (externalId assumeRole) ++ dq
        else EmptyString in
      let StsEndpoints :=
        if isTrue useRegionalStsEndpoints then "regional" else "legacy" in
      List.app lines
        [ "creds=$(mktemp -d)/creds.json";
          "AWS_STS_REGIONAL_ENDPOINTS=" ++ StsEndpoints
            ++ " aws sts assume-role --role-arn " ++ dq ++ roleArn assumeRole ++ dq
            ++ " --role-session-name " ++ dq ++ sessionName assumeRole ++ dq
            ++ " " ++ externalId ++ " > $creds";
          "export AWS_ACCESS_KEY_ID=" ++ dq ++ "$(cat ${creds} | grep " ++ dq
            ++ "AccessKeyId" ++ dq ++ " | cut -d'" ++ dq ++ "' -f 4)" ++ dq;
          "export AWS_SECRET_ACCESS_KEY=" ++ dq ++ "$(cat ${creds} | grep " ++ dq
            ++ "SecretAccessKey" ++ dq ++ " | cut -d'" ++ dq ++ "' -f 4)" ++ dq;
          "export AWS_SESSION_TOKEN=" ++ dq ++ "$(cat ${creds} | grep " ++ dq
            ++ "SessionToken" ++ dq ++ " | cut -d'" ++ dq ++ "' -f 4)" ++ dq ]
  end.

(** [LinuxPlatform.buildCommands(entrypoint)], lines 442-448. *)
Definition LinuxPlatform_buildCommands (entrypoint : string) : list string :=
  [ "export SCRIPT_DIR=/tmp/scriptdir";
    "echo " ++ dq ++ "Running " ++ entrypoint ++ dq;
    "/bin/bash /tmp/scriptdir/" ++ entrypoint ].

(** [WindowsPlatform.prebuildCommands(assumeRole, _useRegionalStsEndpoints)],
    lines 457-468. *)
Definition WindowsPlatform_prebuildCommands
    (assumeRole : option AssumeRole) (_useRegionalStsEndpoints : option bool)
    : outcome (list string) :=
  match assumeRole with
  | Some _ =>
    Thrown "assumeRole is not supported on Windows: https://github.com/awslabs/aws-delivlib/issues/57"
  | None => Returned []
  end.

(** [WindowsPlatform.buildCommands(entrypoint)], lines 470-479. *)
Definition WindowsPlatform_buildCommands (entrypoint : string) : list string :=
  [ "Set-Variable -Name TEMPDIR -Value (New-TemporaryFile).DirectoryName";
    "aws s3 cp s3://$env:" ++ S3_BUCKET_ENV ++ "/$env:" ++ S3_KEY_ENV
      ++ " $TEMPDIR\scripts.zip";
    "New-Item -ItemType Directory -Path $TEMPDIR\scriptdir";
    "Expand-Archive -Path $TEMPDIR/scripts.zip -DestinationPath $TEMPDIR\scriptdir";
    "$env:SCRIPT_DIR = " ++ dq ++ "$TEMPDIR\scriptdir" ++ dq;
    "& $TEMPDIR\scriptdir\" ++ entrypoint ].

(** [abstract class ShellPlatform], lines 347-381: what a platform
    answers.  The build image is an object of the CDK and is left out. *)
Record ShellPlatform : Type := mkShellPlatform {
  platformType : PlatformType;
  prebuildCommands : option AssumeRole -> option bool -> outcome (list string);
  buildCommands : string -> list string
}.

(** [class LinuxPlatform], lines 386-449. *)
Definition LinuxPlatform : ShellPlatform :=
  {| platformType := Linux;
     prebuildCommands := fun assumeRole useRegionalStsEndpoints =>
       Returned (LinuxPlatform_prebuildCommands assumeRole useRegionalStsEndpoints);
     buildCommands := LinuxPlatform_buildCommands |}.

(** [class WindowsPlatform], lines 454-480. *)
Definition WindowsPlatform : ShellPlatform :=
  {| platformType := Windows;
     prebuildCommands := WindowsPlatform_prebuildCommands;
     buildCommands := WindowsPlatform_buildCommands |}.

(** Lines 250 and 266-269 of the constructor of [Shellable]: the
    platform, [props.platform || ShellPlatform.LinuxUbuntu], and the two
    lists of commands handed to [BuildSpec.simple]. *)
Definition Shellable_commands
    (platform : option ShellPlatform) (assumeRole : option AssumeRole)
    (useRegionalStsEndpoints : option bool) (entrypoint : string)
    : outcome (list string * list string) :=
  let platform :=
    match platform with Some p => p | None => LinuxPlatform end in
  match prebuildCommands platform assumeRole useRegionalStsEndpoints with
  | Thrown error => Thrown error
  | Returned preBuild => Returned (preBuild, buildCommands platform entrypoint)
  end.

(** Lines 261-264 of the constructor of [Shellable]: the name of the
    output artifact, from the unique id of the construct.  The length is
    counted in characters of one byte, which those of a unique id are. *)
Definition outputArtifactName (uniqueId : string) : outcome string :=
  let outputArtifactName := "Artifact_" ++ uniqueId in
  if (100 <? String.length outputArtifactName)%nat
  then Thrown ("Whoops, too long: " ++ outputArtifactName)
  else Returned outputArtifactName.

(** Some command of [commands] exports the variable [name]. *)
Definition exports (name : string) (commands : list string) : bool :=
  existsb (String.prefix ("export " ++ name ++ "=")) commands.

(** A role with a session name and an external identifier. *)
Definition auditRole : AssumeRole :=
  {| roleArn := "arn:aws:iam::111122223333:role/audit";
     sessionName := "delivlib";
     externalId := Some "partner-7";
     profileName := None;
     refresh := None |}.

(** The same role for a long running build. *)
Definition longRunningRole : AssumeRole :=
  {| roleArn := "arn:aws:iam::111122223333:role/audit";
     sessionName := "delivlib";
     externalId := Some "partner-7";
     profileName := None;
     refresh := Some true |}.

End Shellable.

(** ** code-signing: the names of a certificate *)

Module CodeSigning.

Local Open Scope string_scope.

(** [path.replace(/^\/+/, '')]: the path without the slashes it starts
    with. *)
Fixpoint stripLeadingSlashes (path : string) : string :=
  match path with
  | String "/"%char rest => stripLeadingSlashes rest
  | _ => path
  end.

(** [const baseName = this.node.path.replace(/^\/+/, '')], line 225 of
    the constructor of [CodeSigningCertificate]. *)
Definition baseName (path : string) : string :=
  stripLeadingSlashes path.

(** [secretName], line 232. *)
Definition secretName (path : string) : string :=
  baseName path ++ "/RSAPrivateKey".

(** [const paramName], line 258. *)
Definition paramName (path : string) : string :=
  baseName path ++ "/Certificate".

(** [this.publicPartParameterName], line 259. *)
Definition publicPartParameterName (path : string) : string :=
  "/" ++ paramName path.

(** [n] slashes. *)
Fixpoint slashes (n : nat) : string :=
  match n with
  | O => EmptyString
  | S k => String "/"%char (slashes k)
  end.

End CodeSigning.

(** ** Proof steps *)

(** Boolean tests as statements of arithmetic. *)
Ltac to_arith :=
  repeat rewrite ?orb_true_iff, ?andb_true_iff, ?orb_false_iff, ?andb_false_iff,
    ?Z.leb_le, ?Z.leb_gt, ?Z.ltb_lt, ?Z.ltb_ge in *.

(** The date operations down to comparisons of integers. *)
Ltac open_dates :=
  unfold happensBetween, isBetween, bufferedDate, newDate, TimeClip, add, mul,
    geq, leq, toNumber, instant, getTime in *.

(** ** Comparisons *)

Lemma geq_true (a b : number) :
  geq a b = true <-> exists x y, a = Num x /\ b = Num y /\ y <= x.
Proof.
  destruct a as [|x], b as [|y]; simpl; split;
    try discriminate; try (intros (x' & y' & Ha & Hb & _); discriminate).
  - intros H. exists x, y. repeat split. now apply Z.leb_le.
  - intros (x' & y' & Ha & Hb & H). inversion Ha; inversion Hb; subst.
    now apply Z.leb_le.
Qed.

Lemma leq_true (a b : number) :
  leq a b = true <-> exists x y, a = Num x /\ b = Num y /\ x <= y.
Proof.
  destruct a as [|x], b as [|y]; simpl; split;
    try discriminate; try (intros (x' & y' & Ha & Hb & _); discriminate).
  - intros H. exists x, y. repeat split. now apply Z.leb_le.
  - intros (x' & y' & Ha & Hb & H). inversion Ha; inversion Hb; subst.
    now apply Z.leb_le.
Qed.

(** On three instants [isBetween] is the closed interval. *)
Lemma isBetween_instants (d l r : Z) :
  isBetween (Some (instant d)) (Some (instant l)) (Some (instant r)) = true
  <-> l <= d <= r.
Proof.
  unfold isBetween; simpl. rewrite andb_true_iff, !Z.leb_le. tauto.
Qed.

Lemma geq_NaN_r (a : number) : geq a NaN = false.
Proof. now destruct a. Qed.

Lemma leq_NaN_r (a : number) : leq a NaN = false.
Proof. now destruct a. Qed.

(** A comparison in which one side carries no instant is false. *)
Lemma isBetween_lacking (d l r : option Date) :
  lacksInstant d \/ lacksInstant l \/ lacksInstant r ->
  isBetween d l r = false.
Proof.
  unfold lacksInstant, isBetween. intros [H | [H | H]]; rewrite H.
  - reflexivity.
  - now rewrite geq_NaN_r.
  - now rewrite leq_NaN_r, andb_false_r.
Qed.

(** The four clauses on an event and a window that all carry instants. *)
Lemma happensBetween_instants (ev : CalendarEvent) (s e from to : Z) :
  spans ev s e ->
  happensBetween ev (instant from) (instant to) = true
  <-> (s <= from <= e) \/ (s <= to <= e) \/ (from <= s <= to) \/ (from <= e <= to).
Proof.
  intros [Hs He]. unfold happensBetween. rewrite Hs, He.
  rewrite !orb_true_iff, !isBetween_instants. tauto.
Qed.

(** ** The conflict predicate *)

(** C1.  For an event with [start <= end], a reference instant [now] and
    a margin that is not negative, the four clauses of [happensBetween]
    on the window from [now] to [bufferedNow = now + margin] hold if and
    only if the two intervals overlap: [start <= now + margin] and
    [end >= now]. *)
Theorem four_clauses_iff_overlap (ev : CalendarEvent) (s e now margin : Z) :
  spans ev s e ->
  s <= e ->
  0 <= margin ->
  happensBetween ev (instant now) (instant (now + margin)) = true
  <-> s <= now + margin /\ e >= now.
Proof.
  intros Hev Hse Hm. rewrite (happensBetween_instants ev s e) by exact Hev. lia.
Qed.

(** C10.  For a degenerate event, [start > end], and a margin that is
    not negative, the predicate holds if and only if [start] or [end]
    lies in the window: no instant lies between [start] and [end], so
    that the first two clauses are false. *)
Theorem degenerate_event_clauses (ev : CalendarEvent) (s e now margin : Z) :
  spans ev s e ->
  e < s ->
  0 <= margin ->
  (isBetween (Some (instant now)) (start ev) (end_ ev) = false
   /\ isBetween (Some (instant (now + margin))) (start ev) (end_ ev) = false)
  /\ (happensBetween ev (instant now) (instant (now + margin)) = true
      <-> (now <= s <= now + margin) \/ (now <= e <= now + margin)).
Proof.
  intros Hev Hes Hm. split.
  - destruct Hev as [Hs He]. rewrite Hs, He.
    split; apply not_true_is_false; rewrite isBetween_instants; lia.
  - rewrite (happensBetween_instants ev s e) by exact Hev. lia.
Qed.

(** ** The evaluator *)

(** The verdict is the first entry that [conflicting] accepts. *)
Lemma evaluate_find (events : Events) (now : Date) (m : Z) :
  evaluate events now m = find (conflicting now m) (Object_values events).
Proof.
  unfold evaluate, containingEventsWithMargin, conflicting.
  generalize (Object_values events) as l.
  induction l as [|a l IH]; [reflexivity|].
  simpl. destruct (isVEVENT a); simpl; [|exact IH].
  destruct (happensBetween a now (bufferedDate now m)); simpl; [reflexivity|exact IH].
Qed.

Lemma blocked_iff (events : Events) (now : Date) (m : Z) :
  blocked events now m
  <-> exists e, In e (Object_values events) /\ conflicting now m e = true.
Proof.
  unfold blocked. rewrite evaluate_find. split.
  - intros [e He]. exists e. now apply find_some in He.
  - intros [e [Hin He]].
    destruct (find (conflicting now m) (Object_values events)) as [x|] eqn:Hf.
    + now exists x.
    + rewrite (find_none _ _ Hf e Hin) in He. discriminate.
Qed.

(** [find] splits the list at the entry it returns. *)
Lemma find_first {A : Type} (f : A -> bool) (l : list A) (x : A) :
  find f l = Some x ->
  exists pre post, l = pre ++ x :: post /\ f x = true
                   /\ forall y, In y pre -> f y = false.
Proof.
  induction l as [|a l IH]; simpl; [discriminate|].
  destruct (f a) eqn:Ha.
  - intros H; inversion H; subst. exists [], l. repeat split; [assumption|].
    intros y [].
  - intros H. destruct (IH H) as (pre & post & -> & Hx & Hpre).
    exists (a :: pre), post. repeat split; [assumption|].
    intros y [<- | Hy]; [assumption | now apply Hpre].
Qed.

Lemma find_filter_same {A : Type} (f g : A -> bool) (l : list A) :
  (forall x, f x = true -> g x = true) ->
  find f (filter g l) = find f l.
Proof.
  intros Hfg. induction l as [|a l IH]; [reflexivity|]. simpl.
  destruct (f a) eqn:Ha.
  - rewrite (Hfg a Ha). simpl. now rewrite Ha.
  - destruct (g a); simpl; [rewrite Ha|]; exact IH.
Qed.

Lemma Object_values_filter (g : CalendarEvent -> bool) (events : Events) :
  Object_values (filter (fun p => g (snd p)) events)
  = filter g (Object_values events).
Proof.
  unfold Object_values. induction events as [|[k e] l IH]; [reflexivity|].
  simpl. destruct (g e); simpl; now rewrite IH.
Qed.

(** Once the document is parsed, the call returns the verdict of
    [evaluate]; [now] and the margin take their defaults when left out. *)
Lemma shouldBlockPipeline_parsed
    (parseICS : string -> outcome Events) (currentTime : Date)
    (icalData : string) (events : Events) (now : option Date) (m : option Z) :
  parseICS icalData = Returned events ->
  shouldBlockPipeline parseICS currentTime icalData now m
  = Returned (evaluate events
                match now with Some d => d | None => currentTime end
                match m with Some s => s | None => 3600 end).
Proof.
  intros Hp. unfold shouldBlockPipeline. now rewrite Hp.
Qed.

(** A document that the parser rejects gives no verdict. *)
Lemma shouldBlockPipeline_unparsed
    (parseICS : string -> outcome Events) (currentTime : Date)
    (icalData error : string) (now : option Date) (m : option Z) :
  parseICS icalData = Thrown error ->
  shouldBlockPipeline parseICS currentTime icalData now m = Thrown error.
Proof.
  intros Hp. unfold shouldBlockPipeline. now rewrite Hp.
Qed.

(** C5.  When an entry of the event kind conflicts with the search
    window, the evaluator returns one event: the first conflicting one in
    the order of [Object.values], so that no entry before it conflicts and
    it is itself a conflicting entry.  When none conflicts the evaluator
    returns [undefined]. *)
Theorem first_conflicting_event (events : Events) (now : Date) (m : Z) :
  ((exists e, In e (Object_values events) /\ conflicting now m e = true) ->
   exists pre e post,
     Object_values events = pre ++ e :: post
     /\ conflicting now m e = true
     /\ (forall x, In x pre -> conflicting now m x = false)
     /\ evaluate events now m = Some e)
  /\ ((forall e, In e (Object_values events) -> conflicting now m e = false) ->
      evaluate events now m = None).
Proof.
  split.
  - intros H. apply blocked_iff in H. destruct H as [e He].
    pose proof He as Hf. rewrite evaluate_find in Hf.
    destruct (find_first _ _ _ Hf) as (pre & post & Hl & Hc & Hpre).
    now exists pre, e, post.
  - intros H. rewrite evaluate_find.
    destruct (find (conflicting now m) (Object_values events)) as [x|] eqn:Hf;
      [|reflexivity].
    apply find_some in Hf. destruct Hf as [Hin Hx].
    rewrite (H x Hin) in Hx. discriminate.
Qed.

(** C6.  Entries whose type is not ['VEVENT'] never affect the verdict:
    the evaluator returns on the whole collection what it returns on the
    collection restricted to the entries of the event kind, and the event
    it returns is of the event kind. *)
Theorem non_events_ignored (events : Events) (now : Date) (m : Z) :
  evaluate events now m
  = evaluate (filter (fun p => isVEVENT (snd p)) events) now m
  /\ forall e, evaluate events now m = Some e -> type e = "VEVENT"%string.
Proof.
  split.
  - rewrite !evaluate_find, Object_values_filter.
    symmetry. apply find_filter_same.
    unfold conflicting. intros x Hx. now apply andb_true_iff in Hx.
  - intros e He. rewrite evaluate_find in He. apply find_some in He.
    destruct He as [_ He]. unfold conflicting in He.
    apply andb_true_iff in He. destruct He as [He _].
    now apply String.eqb_eq in He.
Qed.

(** C8.  When an entry of the event kind has [start <= now <= end], the
    evaluator returns a blocking event for every margin that is not
    negative: the first clause does not read the margin. *)
Theorem inside_event_blocks
    (events : Events) (ev : CalendarEvent) (s e now m : Z) :
  In ev (Object_values events) ->
  type ev = "VEVENT"%string ->
  spans ev s e ->
  s <= now <= e ->
  0 <= m ->
  blocked events (instant now) m.
Proof.
  intros Hin Hty [Hs He] Hnow _. apply blocked_iff. exists ev. split; [exact Hin|].
  unfold conflicting, isVEVENT. rewrite Hty. simpl.
  unfold happensBetween. rewrite Hs, He.
  now rewrite (proj2 (isBetween_instants now s e) Hnow).
Qed.

(** The decision reads [start], [end] and [type] only. *)
Lemma conflicting_same_fields (now : Date) (m : Z) (a b : CalendarEvent) :
  sameDecisionFields a b -> conflicting now m a = conflicting now m b.
Proof.
  intros (Hs & He & Ht).
  unfold conflicting, isVEVENT, happensBetween. now rewrite Hs, He, Ht.
Qed.

Lemma find_Forall2 {A : Type} (R : A -> A -> Prop) (f : A -> bool) (l1 l2 : list A) :
  (forall a b, R a b -> f a = f b) ->
  Forall2 R l1 l2 ->
  (find f l1 = None /\ find f l2 = None)
  \/ exists i a b, nth_error l1 i = Some a /\ nth_error l2 i = Some b
                   /\ R a b /\ find f l1 = Some a /\ find f l2 = Some b.
Proof.
  intros Hf H. induction H as [|a b l1 l2 Hab Hl IH]; [now left|].
  simpl. rewrite <- (Hf a b Hab). destruct (f a).
  - right. exists 0%nat, a, b. now repeat split.
  - destruct IH as [IH | (i & x & y & H1 & H2 & Hxy & F1 & F2)]; [now left|].
    right. exists (S i), x, y. now repeat split.
Qed.

(** C9.  Two collections whose entries agree, in the same order, on
    [start], [end] and [type], and differ at will in [summary],
    [dtstamp], [params] and in their keys, get the same verdict: both are
    not blocked, or both are blocked by the entries at one and the same
    position, which agree on the three fields. *)
Theorem verdict_reads_decision_fields (events1 events2 : Events) (now : Date) (m : Z) :
  Forall2 (fun p q => sameDecisionFields (snd p) (snd q)) events1 events2 ->
  (evaluate events1 now m = None /\ evaluate events2 now m = None)
  \/ exists i a b,
       nth_error (Object_values events1) i = Some a
       /\ nth_error (Object_values events2) i = Some b
       /\ sameDecisionFields a b
       /\ evaluate events1 now m = Some a
       /\ evaluate events2 now m = Some b.
Proof.
  intros H. rewrite !evaluate_find.
  apply find_Forall2.
  - apply conflicting_same_fields.
  - unfold Object_values. induction H; simpl; constructor; assumption.
Qed.

(** ** The buffered date *)

(** Within the range of a time value the buffered date is the instant
    [now + advanceMarginSec * 1000]. *)
Lemma bufferedDate_in_range (now m : Z) :
  Z.abs (now + m * 1000) <= maxTimeValue ->
  bufferedDate (instant now) m = instant (now + m * 1000).
Proof.
  intros H. unfold bufferedDate, newDate, TimeClip, add, mul, instant, getTime.
  destruct (maxTimeValue <? Z.abs (now + m * 1000)) eqn:Hc; [|reflexivity].
  apply Z.ltb_lt in Hc. lia.
Qed.

(** Beyond it the buffered date is the Invalid Date. *)
Lemma bufferedDate_out_of_range (now m : Z) :
  maxTimeValue < Z.abs (now + m * 1000) ->
  bufferedDate (instant now) m = mkDate NaN.
Proof.
  intros H. unfold bufferedDate, newDate, TimeClip, add, mul, instant, getTime.
  apply Z.ltb_lt in H. now rewrite H.
Qed.

(** With a negative margin no instant lies from [now] to the buffered
    date. *)
Lemma empty_window (x : option Date) (now : Date) (m : Z) :
  m < 0 ->
  isBetween x (Some now) (Some (bufferedDate now m)) = false.
Proof.
  intros Hm. destruct now as [[|n]]; destruct x as [[[|x]]|]; open_dates;
    try reflexivity.
  destruct (maxTimeValue <? Z.abs (n + m * 1000)).
  - apply andb_false_r.
  - apply not_true_is_false. to_arith. lia.
Qed.

Lemma happensBetween_negative_margin (ev : CalendarEvent) (now : Date) (m : Z) :
  m < 0 ->
  happensBetween ev now (bufferedDate now m)
  = isBetween (Some now) (start ev) (end_ ev)
    || isBetween (Some (bufferedDate now m)) (start ev) (end_ ev).
Proof.
  intros Hm. unfold happensBetween.
  now rewrite !(empty_window _ now m Hm), !orb_false_r.
Qed.

(** With a margin of zero the four clauses on a well-ordered event say
    that [now] is an instant of the event. *)
Lemma happensBetween_zero_margin (ev : CalendarEvent) (s e : Z) (now : Date) :
  spans ev s e ->
  s <= e ->
  happensBetween ev now (bufferedDate now 0) = true
  <-> exists n, getTime now = Num n /\ s <= n <= e.
Proof.
  intros [Hs He] Hse. destruct now as [[|n]]; open_dates; rewrite Hs, He; cbn.
  - split; [discriminate | intros (n & H & _); discriminate].
  - rewrite Z.add_0_r.
    assert (Hn : (exists n0, Num n = Num n0 /\ s <= n0 <= e) <-> s <= n <= e).
    { split; [intros (n0 & H & Hn0); inversion H; now subst | now exists n]. }
    rewrite Hn.
    destruct (maxTimeValue <? Z.abs n); cbn; to_arith; lia.
Qed.

(** A larger margin keeps a conflict, as long as the larger buffered
    date is a time value. *)
Lemma happensBetween_margin_mono (ev : CalendarEvent) (now : Date) (m1 m2 : Z) :
  0 <= m1 <= m2 ->
  (forall n, getTime now = Num n -> n + m2 * 1000 <= maxTimeValue) ->
  happensBetween ev now (bufferedDate now m1) = true ->
  happensBetween ev now (bufferedDate now m2) = true.
Proof.
  intros Hm Hrange. destruct now as [[|n]].
  - open_dates. destruct (start ev) as [[[|s]]|], (end_ ev) as [[[|e]]|];
      cbn; intros H; exact H.
  - specialize (Hrange n eq_refl). open_dates.
    destruct (maxTimeValue <? Z.abs (n + m1 * 1000)) eqn:H1;
      destruct (maxTimeValue <? Z.abs (n + m2 * 1000)) eqn:H2;
      destruct (start ev) as [[[|s]]|], (end_ ev) as [[[|e]]|];
      cbn; to_arith; try tauto; try lia.
Qed.

Lemma find_pointwise {A : Type} (f g : A -> bool) (l : list A) :
  (forall x, f x = g x) -> find f l = find g l.
Proof.
  intros H. induction l as [|a l IH]; [reflexivity|].
  simpl. now rewrite H, IH.
Qed.

(** ** Margins *)

(** Example 1 of the specification: at 09:30 with a margin of one hour
    the block from 10:00 to 11:00 is reported. *)
Example example_imminent_block :
  evaluate sampleCalendar (instant 34200000) 3600 = Some morningBlock.
Proof. reflexivity. Qed.

(** Example 2 of the specification: at 08:00 with a margin of one hour
    nothing is reported. *)
Example example_no_block :
  evaluate sampleCalendar (instant 28800000) 3600 = None.
Proof. reflexivity. Qed.

(** C3, as stated, fails on an event whose end comes before its start:
    at the very instant of its start and with a margin of zero the third
    clause holds, and the evaluator reports the event although no instant
    lies between its start and its end. *)
Lemma zero_margin_backwards_event :
  evaluate [("b"%string, backwardsBlock)] (instant 1000) 0 = Some backwardsBlock
  /\ ~ (exists ev s e,
          In ev (Object_values [("b"%string, backwardsBlock)])
          /\ type ev = "VEVENT"%string /\ spans ev s e /\ s <= 1000 <= e).
Proof.
  split; [reflexivity|].
  intros (ev & s & e & [<- | []] & _ & [Hs He] & H).
  inversion Hs; inversion He; subst. lia.
Qed.

(** C3, amended.  On a collection whose entries of the event kind have
    [start <= end], the evaluator with a margin of zero returns a
    blocking event if and only if some entry of the event kind has
    [start <= now <= end]. *)
Theorem zero_margin_is_containment (events : Events) (now : Date) :
  wellOrdered events ->
  blocked events now 0
  <-> exists ev s e n,
        In ev (Object_values events)
        /\ type ev = "VEVENT"%string /\ spans ev s e
        /\ getTime now = Num n /\ s <= n <= e.
Proof.
  intros Hwo. rewrite blocked_iff. unfold conflicting. split.
  - intros (ev & Hin & Hc). apply andb_true_iff in Hc. destruct Hc as [Hk Hc].
    destruct (Hwo ev Hin Hk) as (s & e & Hsp & Hse).
    apply (happensBetween_zero_margin ev s e now Hsp Hse) in Hc.
    destruct Hc as (n & Hn & Hc).
    exists ev, s, e, n. repeat split; try assumption; try apply Hsp; try lia.
    now apply String.eqb_eq.
  - intros (ev & s & e & n & Hin & Hty & Hsp & Hn & Hnow).
    exists ev. split; [exact Hin|]. apply andb_true_iff. split.
    + now apply String.eqb_eq.
    + apply (happensBetween_zero_margin ev s e now Hsp); [lia | now exists n].
Qed.

(** C4, as stated, fails once the larger margin carries the buffered
    date beyond the largest time value of a [Date]: the buffered date is
    then the Invalid Date, every comparison with it is false, and only the
    first clause is left.  One second before a block, a margin of one
    second blocks and a margin of 8,640,000,000,001 seconds does not. *)
Lemma larger_margin_unblocks :
  0 <= 1 <= 8640000000001
  /\ evaluate [("e"%string, earlyBlock)] (instant 0) 1 = Some earlyBlock
  /\ evaluate [("e"%string, earlyBlock)] (instant 0) 8640000000001 = None.
Proof. repeat split; try reflexivity; lia. Qed.

(** C4, amended.  For margins [0 <= m1 <= m2] such that [now] plus [m2]
    seconds does not exceed the largest time value of a [Date], a
    blocking event returned with margin [m1] implies a blocking event
    returned with margin [m2]. *)
Theorem margin_monotone (events : Events) (now : Date) (m1 m2 : Z) :
  0 <= m1 <= m2 ->
  (forall n, getTime now = Num n -> n + m2 * 1000 <= maxTimeValue) ->
  blocked events now m1 ->
  blocked events now m2.
Proof.
  intros Hm Hrange. rewrite !blocked_iff. unfold conflicting.
  intros (ev & Hin & Hc). exists ev. split; [exact Hin|].
  apply andb_true_iff in Hc. destruct Hc as [Hk Hc].
  apply andb_true_iff. split; [exact Hk|].
  exact (happensBetween_margin_mono ev now m1 m2 Hm Hrange Hc).
Qed.

(** C2, as stated, fails: the module validates nothing.  With a margin of
    [-1] the call returns, and returns a verdict. *)
Lemma negative_margin_returns :
  shouldBlockPipeline (parsesTo sampleCalendar) (instant 0)
    "BEGIN:VCALENDAR" (Some (instant 37000000)) (Some (-1))
  = Returned (Some morningBlock)
  /\ forall error,
       shouldBlockPipeline (parsesTo sampleCalendar) (instant 0)
         "BEGIN:VCALENDAR" (Some (instant 37000000)) (Some (-1))
       <> Thrown error.
Proof. split; [reflexivity | intros error H; discriminate H]. Qed.

(** C2, amended.  With a negative margin the call does not fail once the
    document is parsed: the buffered date is computed, lies before [now],
    and the verdict is the first entry of the event kind whose interval
    contains [now] or the buffered date. *)
Theorem negative_margin_verdict
    (parseICS : string -> outcome Events) (currentTime : Date)
    (icalData : string) (events : Events) (now : Date) (m : Z) :
  parseICS icalData = Returned events ->
  m < 0 ->
  shouldBlockPipeline parseICS currentTime icalData (Some now) (Some m)
  = Returned
      (find (fun e =>
               isVEVENT e
               && (isBetween (Some now) (start e) (end_ e)
                   || isBetween (Some (bufferedDate now m)) (start e) (end_ e)))
         (Object_values events))
  /\ forall n, getTime now = Num n ->
       getTime (bufferedDate now m) = NaN
       \/ exists b, getTime (bufferedDate now m) = Num b /\ b < n.
Proof.
  intros Hp Hm. split.
  - unfold shouldBlockPipeline. rewrite Hp, evaluate_find. f_equal.
    apply find_pointwise. intros x. unfold conflicting.
    now rewrite (happensBetween_negative_margin x now m Hm).
  - intros n Hn. destruct now as [t]. simpl in Hn. subst t. open_dates.
    destruct (maxTimeValue <? Z.abs (n + m * 1000)); [now left|].
    right. exists (n + m * 1000). split; [reflexivity | lia].
Qed.

(** ** Records without a start or an end *)

(** C7, as stated, fails: a record of the event kind that has no start is
    returned as the blocking event when its end lies in the window, by the
    fourth clause; one that has no end is returned when its start lies in
    the window, by the third. *)
Lemma record_without_start_returned :
  evaluate [("o"%string, openStartBlock)] (instant 0) 1 = Some openStartBlock
  /\ start openStartBlock = None
  /\ evaluate [("o"%string, openEndBlock)] (instant 0) 1 = Some openEndBlock
  /\ end_ openEndBlock = None.
Proof. repeat split. Qed.

(** C7, amended.  On a collection with records that lack a start or an
    end the call does not raise once the document is parsed.  A record
    that lacks both is never returned; a record that lacks its start is
    returned only when its end lies in the window from [now] to the
    buffered date, and a record that lacks its end only when its start
    does. *)
Theorem malformed_records_tolerated
    (parseICS : string -> outcome Events) (currentTime : Date)
    (icalData : string) (events : Events) (now : Date) (m : Z) :
  parseICS icalData = Returned events ->
  exists verdict,
    shouldBlockPipeline parseICS currentTime icalData (Some now) (Some m)
    = Returned verdict
    /\ forall ev, verdict = Some ev ->
         (lacksInstant (start ev) ->
          isBetween (end_ ev) (Some now) (Some (bufferedDate now m)) = true)
         /\ (lacksInstant (end_ ev) ->
             isBetween (start ev) (Some now) (Some (bufferedDate now m)) = true)
         /\ ~ (lacksInstant (start ev) /\ lacksInstant (end_ ev)).
Proof.
  intros Hp. unfold shouldBlockPipeline. rewrite Hp.
  exists (evaluate events now m). split; [reflexivity|].
  intros ev Hev. rewrite evaluate_find in Hev. apply find_some in Hev.
  destruct Hev as [_ Hc]. unfold conflicting in Hc.
  apply andb_true_iff in Hc. destruct Hc as [_ Hc].
  unfold happensBetween in Hc.
  assert (Hs : lacksInstant (start ev) ->
               isBetween (end_ ev) (Some now) (Some (bufferedDate now m)) = true).
  { intros L.
    rewrite (isBetween_lacking (Some now) (start ev) (end_ ev)) in Hc by tauto.
    rewrite (isBetween_lacking (Some (bufferedDate now m)) (start ev) (end_ ev))
      in Hc by tauto.
    rewrite (isBetween_lacking (start ev)) in Hc by tauto.
    exact Hc. }
  assert (He : lacksInstant (end_ ev) ->
               isBetween (start ev) (Some now) (Some (bufferedDate now m)) = true).
  { intros L.
    rewrite (isBetween_lacking (Some now) (start ev) (end_ ev)) in Hc by tauto.
    rewrite (isBetween_lacking (Some (bufferedDate now m)) (start ev) (end_ ev))
      in Hc by tauto.
    rewrite (isBetween_lacking (end_ ev)) in Hc by tauto.
    now rewrite orb_false_r in Hc. }
  repeat split; [exact Hs | exact He |].
  intros [Ls Le]. specialize (Hs Ls).
  rewrite (isBetween_lacking (end_ ev)) in Hs by tauto. discriminate.
Qed.

(** ** The theorems at sample inputs *)

Lemma four_clauses_iff_overlap_witness :
  (spans morningBlock 36000000 39600000 /\ 36000000 <= 39600000 /\ 0 <= 3600000)
  /\ (happensBetween morningBlock (instant 34200000) (instant (34200000 + 3600000))
      = true
      <-> 36000000 <= 34200000 + 3600000 /\ 39600000 >= 34200000).
Proof.
  split.
  - repeat split; lia.
  - apply (four_clauses_iff_overlap morningBlock 36000000 39600000 34200000 3600000).
    + split; reflexivity.
    + lia.
    + lia.
Defined.

Lemma degenerate_event_clauses_witness :
  (spans backwardsBlock 1000 500 /\ 500 < 1000 /\ 0 <= 200)
  /\ (happensBetween backwardsBlock (instant 400) (instant (400 + 200)) = true
      <-> (400 <= 1000 <= 400 + 200) \/ (400 <= 500 <= 400 + 200)).
Proof.
  split.
  - repeat split; lia.
  - apply (degenerate_event_clauses backwardsBlock 1000 500 400 200).
    + split; reflexivity.
    + lia.
    + lia.
Defined.

Lemma first_conflicting_event_witness :
  (exists pre e post,
      Object_values sampleCalendar = pre ++ e :: post
      /\ conflicting (instant 34200000) 3600 e = true
      /\ (forall x, In x pre -> conflicting (instant 34200000) 3600 x = false)
      /\ evaluate sampleCalendar (instant 34200000) 3600 = Some e)
  /\ evaluate sampleCalendar (instant 28800000) 3600 = None.
Proof.
  split.
  - apply (proj1 (first_conflicting_event sampleCalendar (instant 34200000) 3600)).
    exists morningBlock. split; [simpl; tauto | reflexivity].
  - apply (proj2 (first_conflicting_event sampleCalendar (instant 28800000) 3600)).
    intros e [<- | [<- | [<- | []]]]; reflexivity.
Defined.

Lemma non_events_ignored_witness :
  evaluate sampleCalendar (instant 34200000) 3600 = Some morningBlock
  /\ type morningBlock = "VEVENT"%string.
Proof.
  split; [reflexivity|].
  apply (proj2 (non_events_ignored sampleCalendar (instant 34200000) 3600)).
  reflexivity.
Defined.

Lemma inside_event_blocks_witness :
  blocked sampleCalendar (instant 37000000) 0.
Proof.
  apply (inside_event_blocks sampleCalendar morningBlock 36000000 39600000 37000000 0).
  - simpl; tauto.
  - reflexivity.
  - split; reflexivity.
  - lia.
  - lia.
Defined.

Lemma verdict_reads_decision_fields_witness :
  (evaluate sampleCalendar (instant 34200000) 3600 = None
   /\ evaluate relabelledCalendar (instant 34200000) 3600 = None)
  \/ exists i a b,
       nth_error (Object_values sampleCalendar) i = Some a
       /\ nth_error (Object_values relabelledCalendar) i = Some b
       /\ sameDecisionFields a b
       /\ evaluate sampleCalendar (instant 34200000) 3600 = Some a
       /\ evaluate relabelledCalendar (instant 34200000) 3600 = Some b.
Proof.
  apply (verdict_reads_decision_fields sampleCalendar relabelledCalendar).
  repeat constructor.
Defined.

Lemma zero_margin_is_containment_witness :
  wellOrdered sampleCalendar
  /\ (blocked sampleCalendar (instant 37000000) 0
      <-> exists ev s e n,
            In ev (Object_values sampleCalendar)
            /\ type ev = "VEVENT"%string /\ spans ev s e
            /\ getTime (instant 37000000) = Num n /\ s <= n <= e).
Proof.
  assert (H : wellOrdered sampleCalendar).
  { intros ev [<- | [<- | [<- | []]]] Hk.
    - discriminate Hk.
    - exists 36000000, 39600000. repeat split. lia.
    - exists 37800000, 43200000. repeat split. lia. }
  split; [exact H|].
  apply (zero_margin_is_containment sampleCalendar (instant 37000000) H).
Defined.

Lemma margin_monotone_witness :
  blocked sampleCalendar (instant 34200000) 3600
  /\ blocked sampleCalendar (instant 34200000) 7200.
Proof.
  assert (H : blocked sampleCalendar (instant 34200000) 3600).
  { exists morningBlock. reflexivity. }
  split; [exact H|].
  apply (margin_monotone sampleCalendar (instant 34200000) 3600 7200).
  - lia.
  - intros n Hn. inversion Hn. unfold maxTimeValue. lia.
  - exact H.
Defined.

Lemma negative_margin_verdict_witness :
  shouldBlockPipeline (parsesTo sampleCalendar) (instant 0)
    "BEGIN:VCALENDAR" (Some (instant 37000000)) (Some (-1))
  = Returned
      (find (fun e =>
               isVEVENT e
               && (isBetween (Some (instant 37000000)) (start e) (end_ e)
                   || isBetween (Some (bufferedDate (instant 37000000) (-1)))
                        (start e) (end_ e)))
         (Object_values sampleCalendar)).
Proof.
  apply (proj1 (negative_margin_verdict (parsesTo sampleCalendar) (instant 0)
                  "BEGIN:VCALENDAR" sampleCalendar (instant 37000000) (-1)
                  eq_refl eq_refl)).
Defined.

Lemma malformed_records_tolerated_witness :
  exists verdict,
    shouldBlockPipeline (parsesTo [("o"%string, openStartBlock)]) (instant 0)
      "BEGIN:VCALENDAR" (Some (instant 0)) (Some 1)
    = Returned verdict.
Proof.
  destruct (malformed_records_tolerated
              (parsesTo [("o"%string, openStartBlock)]) (instant 0)
              "BEGIN:VCALENDAR" [("o"%string, openStartBlock)] (instant 0) 1
              eq_refl) as [verdict [H _]].
  exists verdict. exact H.
Defined.

(** ** Further properties of time-window.ts *)

Lemma find_all_false {A : Type} (f : A -> bool) (l : list A) :
  (forall x, In x l -> f x = false) -> find f l = None.
Proof.
  intros H. destruct (find f l) as [x|] eqn:Hf; [|reflexivity].
  apply find_some in Hf. destruct Hf as [Hin Hx].
  rewrite (H x Hin) in Hx. discriminate.
Qed.

Lemma find_app {A : Type} (f : A -> bool) (l1 l2 : list A) :
  find f (l1 ++ l2)
  = match find f l1 with Some x => Some x | None => find f l2 end.
Proof.
  induction l1 as [|a l1 IH]; [reflexivity|].
  simpl. now destruct (f a).
Qed.

(** The conflict of a well-ordered event with the window of [now] and a
    margin in seconds, as long as the buffered date is a time value. *)
Lemma conflicting_iff_overlap (ev : CalendarEvent) (s e now m : Z) :
  spans ev s e ->
  s <= e ->
  0 <= m ->
  Z.abs (now + m * 1000) <= maxTimeValue ->
  happensBetween ev (instant now) (bufferedDate (instant now) m) = true
  <-> s <= now + m * 1000 /\ now <= e.
Proof.
  intros Hsp Hse Hm Hr. rewrite (bufferedDate_in_range now m Hr).
  rewrite (happensBetween_instants ev s e) by exact Hsp. lia.
Qed.

(** The verdict on a well-ordered collection, by overlap. *)
Lemma blocked_window (events : Events) (now m : Z) :
  wellOrdered events ->
  0 <= m ->
  Z.abs (now + m * 1000) <= maxTimeValue ->
  blocked events (instant now) m
  <-> exists ev s e,
        In ev (Object_values events)
        /\ type ev = "VEVENT"%string /\ spans ev s e
        /\ s <= now + m * 1000 /\ now <= e.
Proof.
  intros Hwo Hm Hr. rewrite blocked_iff. unfold conflicting. split.
  - intros (ev & Hin & Hc). apply andb_true_iff in Hc. destruct Hc as [Hk Hc].
    destruct (Hwo ev Hin Hk) as (s & e & Hsp & Hse).
    apply (conflicting_iff_overlap ev s e now m Hsp Hse Hm Hr) in Hc.
    exists ev, s, e. repeat split; try apply Hsp; try tauto.
    now apply String.eqb_eq.
  - intros (ev & s & e & Hin & Hty & Hsp & Hs & He).
    exists ev. split; [exact Hin|]. apply andb_true_iff. split.
    + now apply String.eqb_eq.
    + assert (Hk : isVEVENT ev = true) by now apply String.eqb_eq.
      destruct (Hwo ev Hin Hk) as (s' & e' & [Hs' He'] & Hse).
      destruct Hsp as [Hs0 He0]. rewrite Hs0 in Hs'. rewrite He0 in He'.
      inversion Hs'; inversion He'; subst s' e'.
      apply (conflicting_iff_overlap ev s e now m); try tauto. now split.
Qed.

(** X1.  The margin is counted in seconds and looks forward only: on a
    collection whose entries of the event kind have [start <= end], and
    for a margin that is not negative and keeps the buffered date within
    the range of a [Date], the evaluator returns a blocking event if and
    only if some entry of the event kind overlaps the window from [now] to
    [now + 1000 * margin] milliseconds, bounds included. *)
Theorem blocked_iff_overlap (events : Events) (now m : Z) :
  wellOrdered events ->
  0 <= m ->
  Z.abs (now + m * 1000) <= maxTimeValue ->
  blocked events (instant now) m
  <-> exists ev s e,
        In ev (Object_values events)
        /\ type ev = "VEVENT"%string /\ spans ev s e
        /\ s <= now + m * 1000 /\ now <= e.
Proof.
  intros Hwo Hm Hr. exact (blocked_window events now m Hwo Hm Hr).
Qed.

(** X2.  The four clauses are symmetric in the event and the window: an
    event from [s] to [e] happens between [fromDate] and [toDate] exactly
    when an event from [fromDate] to [toDate] happens between [s] and
    [e], whatever the dates, valid or not. *)
Theorem happensBetween_symmetric
    (ev window : CalendarEvent) (s e fromDate toDate : Date) :
  start ev = Some s -> end_ ev = Some e ->
  start window = Some fromDate -> end_ window = Some toDate ->
  happensBetween ev fromDate toDate = happensBetween window s e.
Proof.
  intros Hs He Hf Ht. unfold happensBetween. rewrite Hs, He, Hf, Ht.
  destruct (isBetween (Some fromDate) (Some s) (Some e)),
    (isBetween (Some toDate) (Some s) (Some e)),
    (isBetween (Some s) (Some fromDate) (Some toDate)),
    (isBetween (Some e) (Some fromDate) (Some toDate)); reflexivity.
Qed.

(** X3.  When [now] is the Invalid Date nothing blocks: every comparison
    is false, so that the evaluator returns [undefined] on every
    collection and for every margin. *)
Theorem invalid_now_never_blocks (events : Events) (m : Z) :
  evaluate events (mkDate NaN) m = None.
Proof.
  rewrite evaluate_find. apply find_all_false. intros ev _.
  unfold conflicting. change (bufferedDate (mkDate NaN) m) with (mkDate NaN).
  unfold happensBetween.
  rewrite (isBetween_lacking (Some (mkDate NaN)) (start ev) (end_ ev))
    by (left; reflexivity).
  rewrite (isBetween_lacking (start ev) (Some (mkDate NaN)) (Some (mkDate NaN)))
    by (right; left; reflexivity).
  rewrite (isBetween_lacking (end_ ev) (Some (mkDate NaN)) (Some (mkDate NaN)))
    by (right; left; reflexivity).
  apply andb_false_r.
Qed.

(** X4.  When the margin carries the buffered date out of the range of a
    [Date], the margin is lost altogether: the verdict is the first entry
    of the event kind whose interval contains [now], as if no window were
    searched. *)
Theorem out_of_range_margin_is_containment (events : Events) (now m : Z) :
  maxTimeValue < Z.abs (now + m * 1000) ->
  evaluate events (instant now) m
  = find (fun ev => isVEVENT ev
                    && isBetween (Some (instant now)) (start ev) (end_ ev))
      (Object_values events).
Proof.
  intros Hr. rewrite evaluate_find. apply find_pointwise. intros ev.
  unfold conflicting, happensBetween. rewrite (bufferedDate_out_of_range now m Hr).
  rewrite (isBetween_lacking (Some (mkDate NaN))),
    (isBetween_lacking (start ev)), (isBetween_lacking (end_ ev));
    try (unfold lacksInstant; simpl; tauto).
  now rewrite !orb_false_r.
Qed.

(** X5.  Whether the pipeline is blocked does not depend on the order in
    which the collection is enumerated: two collections whose entries are
    a permutation of one another are blocked together, although the event
    that is returned may differ. *)
Theorem blocked_order_independent (events1 events2 : Events) (now : Date) (m : Z) :
  Permutation (Object_values events1) (Object_values events2) ->
  blocked events1 now m <-> blocked events2 now m.
Proof.
  intros Hp. rewrite !blocked_iff. split; intros (ev & Hin & Hc); exists ev;
    (split; [|exact Hc]).
  - exact (Permutation_in ev Hp Hin).
  - exact (Permutation_in ev (Permutation_sym Hp) Hin).
Qed.

(** X6.  On two collections enumerated one after the other the verdict is
    the verdict on the first, or else the verdict on the second: entries
    that come later never change the event that is returned, and further
    entries never lift a block. *)
Theorem evaluate_app (events more : Events) (now : Date) (m : Z) :
  evaluate (events ++ more) now m
  = match evaluate events now m with
    | Some ev => Some ev
    | None => evaluate more now m
    end.
Proof.
  rewrite !evaluate_find. unfold Object_values. rewrite map_app. apply find_app.
Qed.

(** X7.  The list of blocks only grows with the margin: for margins
    [0 <= m1 <= m2] such that [now] plus [m2] seconds does not exceed the
    largest time value, every event that [containingEventsWithMargin]
    returns with [m1] is among those it returns with [m2]. *)
Theorem blocks_grow_with_margin (events : Events) (now : Date) (m1 m2 : Z) :
  0 <= m1 <= m2 ->
  (forall n, getTime now = Num n -> n + m2 * 1000 <= maxTimeValue) ->
  incl (containingEventsWithMargin events now m1)
       (containingEventsWithMargin events now m2).
Proof.
  intros Hm Hr ev. unfold containingEventsWithMargin. rewrite !filter_In.
  intros [Hin Hc]. split; [exact Hin|].
  exact (happensBetween_margin_mono ev now m1 m2 Hm Hr Hc).
Qed.

(** X8.  With [now] and the margin left out, the call looks one hour
    ahead of the current time: once the document is parsed into a
    collection whose entries of the event kind have [start <= end], it
    returns an event if and only if some entry of the event kind overlaps
    the 3,600,000 milliseconds that start at the current time. *)
Theorem default_margin_one_hour
    (parseICS : string -> outcome Events) (icalData : string)
    (events : Events) (t : Z) :
  parseICS icalData = Returned events ->
  wellOrdered events ->
  Z.abs (t + 3600000) <= maxTimeValue ->
  exists verdict,
    shouldBlockPipeline parseICS (instant t) icalData None None = Returned verdict
    /\ (verdict <> None
        <-> exists ev s e,
              In ev (Object_values events)
              /\ type ev = "VEVENT"%string /\ spans ev s e
              /\ s <= t + 3600000 /\ t <= e).
Proof.
  intros Hp Hwo Hr. rewrite (shouldBlockPipeline_parsed _ _ _ events) by exact Hp.
  exists (evaluate events (instant t) 3600). split; [reflexivity|].
  assert (Hb : evaluate events (instant t) 3600 <> None
               <-> blocked events (instant t) 3600).
  { unfold blocked. destruct (evaluate events (instant t) 3600) as [x|].
    - split; [intros _; now exists x | discriminate].
    - split; [congruence | intros [x Hx]; discriminate]. }
  rewrite Hb.
  change (t + 3600000) with (t + 3600 * 1000) in *.
  apply (blocked_window events t 3600 Hwo); [lia | exact Hr].
Qed.

(** ** shellable.ts: the commands of a platform *)

Module ShellableFacts.

Import Shellable.

(** X9.  On Linux the first four commands download and unpack the script
    bundle, whatever role is assumed and whatever the endpoints: they are
    the commands of a build that assumes no role. *)
Theorem download_comes_first
    (assumeRole : option AssumeRole) (useRegionalStsEndpoints : option bool) :
  firstn 4 (LinuxPlatform_prebuildCommands assumeRole useRegionalStsEndpoints)
  = LinuxPlatform_prebuildCommands None None.
Proof.
  destruct assumeRole as [r|]; [|reflexivity].
  unfold LinuxPlatform_prebuildCommands.
  destruct (isTrue (refresh r)); [destruct (truthy (externalId r))|]; reflexivity.
Qed.

(** X10.  The choice of regional endpoints changes the commands exactly
    when a role is assumed without [refresh]: two values of the flag give
    the same commands if and only if they are both true or both not, or no
    role is assumed, or the role is refreshed through a profile. *)
Theorem regional_flag_scope
    (assumeRole : option AssumeRole) (flag1 flag2 : option bool) :
  LinuxPlatform_prebuildCommands assumeRole flag1
  = LinuxPlatform_prebuildCommands assumeRole flag2
  <-> isTrue flag1 = isTrue flag2
      \/ assumeRole = None
      \/ exists r, assumeRole = Some r /\ isTrue (refresh r) = true.
Proof.
  destruct assumeRole as [r|]; [|split; [intros _; tauto | reflexivity]].
  unfold LinuxPlatform_prebuildCommands.
  destruct (isTrue (refresh r)) eqn:Hr.
  - split; [intros _; right; right; now exists r | reflexivity].
  - split.
    + intros H. left.
      destruct (isTrue flag1), (isTrue flag2); try reflexivity;
        simpl in H; inversion H.
    + intros [H | [H | (r' & H & Hr')]].
      * now rewrite H.
      * discriminate H.
      * inversion H; subst r'. rewrite Hr in Hr'. discriminate Hr'.
Qed.

(** X11.  An external identifier that is the empty string counts as
    none, with and without [refresh]: no [external_id] line and no
    [--external-id] option is written for it. *)
Theorem empty_external_id_is_none
    (arn session : string) (profile : option string) (rf flag : option bool) :
  LinuxPlatform_prebuildCommands
    (Some (mkAssumeRole arn session (Some EmptyString) profile rf)) flag
  = LinuxPlatform_prebuildCommands
      (Some (mkAssumeRole arn session None profile rf)) flag.
Proof. reflexivity. Qed.

(** X12.  The two ways of handing credentials to the build exclude one
    another: with [refresh] the commands export [AWS_PROFILE] and none of
    the three session variables, without it they export the three session
    variables and no [AWS_PROFILE]. *)
Theorem credential_mechanisms_exclusive
    (r : AssumeRole) (flag : option bool) :
  exports "AWS_PROFILE" (LinuxPlatform_prebuildCommands (Some r) flag)
  = isTrue (refresh r)
  /\ exports "AWS_ACCESS_KEY_ID" (LinuxPlatform_prebuildCommands (Some r) flag)
     = negb (isTrue (refresh r))
  /\ exports "AWS_SECRET_ACCESS_KEY" (LinuxPlatform_prebuildCommands (Some r) flag)
     = negb (isTrue (refresh r))
  /\ exports "AWS_SESSION_TOKEN" (LinuxPlatform_prebuildCommands (Some r) flag)
     = negb (isTrue (refresh r)).
Proof.
  destruct r as [arn session ext profile rf].
  unfold LinuxPlatform_prebuildCommands; simpl refresh; simpl profileName.
  destruct (isTrue rf).
  - destruct profile as [[|c p]|];
      destruct (truthy (externalId (mkAssumeRole arn session ext _ rf)));
      repeat split; reflexivity.
  - repeat split; reflexivity.
Qed.

(** X13.  A role can be assumed on Linux only: among the platforms of the
    module, and with Linux for a platform left out, the commands of a
    [Shellable] cannot be built exactly when the platform is Windows and a
    role is to be assumed. *)
Theorem assume_role_needs_linux
    (platform : option ShellPlatform) (assumeRole : option AssumeRole)
    (flag : option bool) (entrypoint : string) :
  platform = None \/ platform = Some LinuxPlatform
  \/ platform = Some WindowsPlatform ->
  (exists error,
      Shellable_commands platform assumeRole flag entrypoint = Thrown error)
  <-> platform = Some WindowsPlatform /\ assumeRole <> None.
Proof.
  intros [-> | [-> | ->]]; unfold Shellable_commands; simpl.
  - split; [intros [error H]; discriminate H | intros [H _]; discriminate H].
  - split; [intros [error H]; discriminate H | intros [H _]].
    inversion H.
  - destruct assumeRole as [r|]; simpl.
    + split; [intros _; split; [reflexivity | discriminate] |].
      intros _. eexists. reflexivity.
    + split; [intros [error H]; discriminate H | intros [_ H]; now contradict H].
Qed.

(** X14.  The name of the output artifact is accepted when it has at most
    100 characters, that is when the unique id has at most 91: a name that
    is returned is [Artifact_] followed by the id and is that short, and a
    longer one is refused. *)
Theorem artifact_name_bound (uniqueId : string) :
  match outputArtifactName uniqueId with
  | Returned name =>
      name = ("Artifact_" ++ uniqueId)%string
      /\ (String.length name <= 100)%nat
      /\ (String.length uniqueId <= 91)%nat
  | Thrown _ => (91 < String.length uniqueId)%nat
  end.
Proof.
  unfold outputArtifactName.
  destruct (100 <? String.length ("Artifact_" ++ uniqueId))%nat eqn:H.
  - apply Nat.ltb_lt in H. simpl in H. lia.
  - apply Nat.ltb_ge in H. simpl in H. simpl. repeat split; lia.
Qed.

(** X17.  On both platforms the script bundle is copied from S3 and the
    entry point is what the last command runs: when the commands of a
    [Shellable] are built, one of them starts with [aws s3 cp s3://], in
    the first list on Linux and in the second on Windows, and the last
    command of the second list ends with the entry point. *)
Theorem bundle_always_downloaded
    (platform : option ShellPlatform) (assumeRole : option AssumeRole)
    (flag : option bool) (entrypoint : string) (preBuild build : list string) :
  platform = None \/ platform = Some LinuxPlatform
  \/ platform = Some WindowsPlatform ->
  Shellable_commands platform assumeRole flag entrypoint
  = Returned (preBuild, build) ->
  existsb (String.prefix "aws s3 cp s3://") (preBuild ++ build) = true
  /\ exists run, last build EmptyString = (run ++ entrypoint)%string.
Proof.
  assert (Linux_case :
    Returned (LinuxPlatform_prebuildCommands assumeRole flag,
              LinuxPlatform_buildCommands entrypoint)
    = Returned (preBuild, build) ->
    existsb (String.prefix "aws s3 cp s3://") (preBuild ++ build) = true
    /\ exists run, last build EmptyString = (run ++ entrypoint)%string).
  { intros H. inversion H; subst preBuild build. split.
    - destruct assumeRole as [r|]; [|reflexivity].
      unfold LinuxPlatform_prebuildCommands.
      destruct (isTrue (refresh r)); [destruct (truthy (externalId r))|];
        reflexivity.
    - now exists "/bin/bash /tmp/scriptdir/"%string. }
  intros [-> | [-> | ->]]; unfold Shellable_commands; simpl;
    [exact Linux_case | exact Linux_case |].
  destruct assumeRole as [r|]; simpl; [discriminate|].
  intros H. inversion H; subst preBuild build. split; [reflexivity|].
  now exists "& $TEMPDIR\scriptdir\"%string.
Qed.

End ShellableFacts.

(** ** code-signing: the names of a certificate *)

Module CodeSigningFacts.

Import CodeSigning.

Lemma strip_other (c : ascii) (rest : string) :
  c <> "/"%char -> stripLeadingSlashes (String c rest) = String c rest.
Proof.
  destruct c as [[] [] [] [] [] [] [] []]; intros H; try reflexivity.
  now contradict H.
Qed.

Lemma strip_decomposes (path : string) :
  exists n, path = (slashes n ++ stripLeadingSlashes path)%string.
Proof.
  induction path as [|c rest IH]; [now exists 0%nat|].
  destruct (ascii_dec c "/"%char) as [-> | Hc].
  - destruct IH as [n Hn]. exists (S n). simpl. now rewrite <- Hn.
  - exists 0%nat. now rewrite (strip_other c rest Hc).
Qed.

Lemma prefix_slash (c : ascii) (rest : string) :
  String.prefix "/" (String c rest) = true <-> c = "/"%char.
Proof.
  change (String.prefix "/" (String c rest))
    with (match ascii_dec "/"%char c with
          | left _ => String.prefix EmptyString rest
          | right _ => false
          end).
  destruct (ascii_dec "/"%char c) as [E | E].
  - destruct rest; simpl; split; congruence.
  - split; [discriminate | congruence].
Qed.

Lemma strip_no_slash (path : string) :
  String.prefix "/" (stripLeadingSlashes path) = false.
Proof.
  induction path as [|c rest IH]; [reflexivity|].
  destruct (ascii_dec c "/"%char) as [-> | Hc]; [exact IH|].
  rewrite (strip_other c rest Hc). apply not_true_is_false.
  now rewrite prefix_slash.
Qed.

Lemma strip_fixed (s : string) :
  String.prefix "/" s = false -> stripLeadingSlashes s = s.
Proof.
  destruct s as [|c rest]; [reflexivity|]. intros H.
  apply strip_other. intros Hc. apply (proj2 (prefix_slash c rest)) in Hc.
  congruence.
Qed.

(** X15.  The base name is the path of the construct without the slashes
    it starts with: the path is some slashes followed by the base name,
    the base name starts with no slash, and taking the base name twice
    changes nothing more. *)
Theorem baseName_strips_leading_slashes (path : string) :
  (exists n, path = (slashes n ++ baseName path)%string)
  /\ String.prefix "/" (baseName path) = false
  /\ baseName (baseName path) = baseName path.
Proof.
  unfold baseName. repeat split.
  - apply strip_decomposes.
  - apply strip_no_slash.
  - apply strip_fixed, strip_no_slash.
Qed.

(** X16.  The name of the parameter that holds the certificate starts
    with a slash; it starts with two exactly when the base name is
    empty, that is when the path is empty or made of slashes only. *)
Theorem parameter_name_leading_slash (path : string) :
  String.prefix "/" (publicPartParameterName path) = true
  /\ (String.prefix "//" (publicPartParameterName path) = true
      <-> baseName path = EmptyString).
Proof.
  unfold publicPartParameterName, paramName, baseName. split.
  { exact (proj2 (prefix_slash "/"%char
                    (stripLeadingSlashes path ++ "/Certificate")) eq_refl). }
  pose proof (strip_no_slash path) as H.
  destruct (stripLeadingSlashes path) as [|c rest].
  - split; reflexivity.
  - change (String.prefix "//" ("/" ++ (String c rest ++ "/Certificate")))
      with (String.prefix "/" (String c (rest ++ "/Certificate"))).
    split; [|discriminate].
    intros P. apply prefix_slash in P. apply (proj2 (prefix_slash c rest)) in P.
    congruence.
Qed.

End CodeSigningFacts.

(** ** The further properties at sample inputs *)

Lemma sampleCalendar_wellOrdered : wellOrdered sampleCalendar.
Proof.
  intros ev [<- | [<- | [<- | []]]] Hk.
  - discriminate Hk.
  - exists 36000000, 39600000. repeat split. lia.
  - exists 37800000, 43200000. repeat split. lia.
Qed.

Lemma blocked_iff_overlap_witness :
  blocked sampleCalendar (instant 34200000) 3600
  <-> exists ev s e,
        In ev (Object_values sampleCalendar)
        /\ type ev = "VEVENT"%string /\ spans ev s e
        /\ s <= 34200000 + 3600 * 1000 /\ 34200000 <= e.
Proof.
  apply (blocked_iff_overlap sampleCalendar 34200000 3600).
  - exact sampleCalendar_wellOrdered.
  - lia.
  - unfold maxTimeValue. lia.
Defined.

Lemma happensBetween_symmetric_witness :
  happensBetween morningBlock (instant 37800000) (instant 43200000)
  = happensBetween noonBlock (instant 36000000) (instant 39600000).
Proof.
  apply (happensBetween_symmetric morningBlock noonBlock
           (instant 36000000) (instant 39600000)
           (instant 37800000) (instant 43200000)); reflexivity.
Defined.

Lemma out_of_range_margin_is_containment_witness :
  evaluate [("e"%string, earlyBlock)] (instant 0) 8640000000001
  = find (fun ev => isVEVENT ev
                    && isBetween (Some (instant 0)) (start ev) (end_ ev))
      (Object_values [("e"%string, earlyBlock)]).
Proof.
  apply (out_of_range_margin_is_containment
           [("e"%string, earlyBlock)] 0 8640000000001).
  reflexivity.
Defined.

Lemma blocked_order_independent_witness :
  blocked sampleCalendar (instant 34200000) 3600
  <-> blocked (rev sampleCalendar) (instant 34200000) 3600.
Proof.
  apply (blocked_order_independent sampleCalendar (rev sampleCalendar)).
  exact (Permutation_rev (Object_values sampleCalendar)).
Defined.

Lemma blocks_grow_with_margin_witness :
  incl (containingEventsWithMargin sampleCalendar (instant 34200000) 3600)
       (containingEventsWithMargin sampleCalendar (instant 34200000) 7200).
Proof.
  apply (blocks_grow_with_margin sampleCalendar (instant 34200000) 3600 7200).
  - lia.
  - intros n Hn. inversion Hn. unfold maxTimeValue. lia.
Defined.

Lemma default_margin_one_hour_witness :
  exists verdict,
    shouldBlockPipeline (parsesTo sampleCalendar) (instant 34200000)
      "BEGIN:VCALENDAR" None None = Returned verdict
    /\ (verdict <> None
        <-> exists ev s e,
              In ev (Object_values sampleCalendar)
              /\ type ev = "VEVENT"%string /\ spans ev s e
              /\ s <= 34200000 + 3600000 /\ 34200000 <= e).
Proof.
  apply (default_margin_one_hour (parsesTo sampleCalendar) "BEGIN:VCALENDAR"
           sampleCalendar 34200000).
  - reflexivity.
  - exact sampleCalendar_wellOrdered.
  - unfold maxTimeValue. lia.
Defined.

Lemma assume_role_needs_linux_witness :
  (exists error,
      Shellable.Shellable_commands (Some Shellable.WindowsPlatform)
        (Some Shellable.auditRole) None "run.ps1" = Thrown error)
  <-> Some Shellable.WindowsPlatform = Some Shellable.WindowsPlatform
      /\ Some Shellable.auditRole <> None.
Proof.
  apply (ShellableFacts.assume_role_needs_linux
           (Some Shellable.WindowsPlatform) (Some Shellable.auditRole)
           None "run.ps1").
  right; right; reflexivity.
Defined.

(** The commands of a build that assumes the audit role, with and
    without a profile. *)
Example audit_role_commands :
  nth_error (Shellable.LinuxPlatform_prebuildCommands
               (Some Shellable.auditRole) (Some true)) 5
  = Some (String.concat Shellable.dq
            [ "AWS_STS_REGIONAL_ENDPOINTS=regional aws sts assume-role --role-arn ";
              "arn:aws:iam::111122223333:role/audit"; " --role-session-name ";
              "delivlib"; " --external-id "; "partner-7"; " > $creds" ])%string
  /\ List.length (Shellable.LinuxPlatform_prebuildCommands
                    (Some Shellable.auditRole) None) = 9%nat
  /\ List.length (Shellable.LinuxPlatform_prebuildCommands
                    (Some Shellable.longRunningRole) None) = 14%nat
  /\ last (Shellable.LinuxPlatform_prebuildCommands
             (Some Shellable.longRunningRole) None) EmptyString
     = "export AWS_SDK_LOAD_CONFIG=1"%string.
Proof. repeat split. Qed.

Lemma bundle_always_downloaded_witness :
  existsb (String.prefix "aws s3 cp s3://")
    (Shellable.LinuxPlatform_prebuildCommands (Some Shellable.auditRole) None
     ++ Shellable.LinuxPlatform_buildCommands "run.sh") = true
  /\ exists run,
       last (Shellable.LinuxPlatform_buildCommands "run.sh") EmptyString
       = (run ++ "run.sh")%string.
Proof.
  apply (ShellableFacts.bundle_always_downloaded
           None (Some Shellable.auditRole) None "run.sh").
  - left; reflexivity.
  - reflexivity.
Defined.
